(** * FoxServer: a chainable facade over an express pipeline and an HTTP listener

    Shallow embedding of [server.ts] (class [FoxServer]) and [index.ts]
    ([createFoxServer]).  The facade owns three objects that it reaches through
    references: the express application (the request pipeline), the
    [http.Server] (the listener) and a log4js logger.  The objects live in a
    store, the [World]; every method takes the facade and the world and gives
    back its result and the new world.

    The collaborators (express, the middleware factories, node's [http] and
    log4js) are not part of the repository.  They appear here through the
    calls the facade makes on them:
    - a middleware factory applied to its arguments is a term recording the
      factory and the arguments ([Express.Middleware]); [express.static] and
      the session factory throw for the arguments they refuse
      ([Express.refused]), before [app.use] is reached;
    - [app.use] appends a layer to the application's stack, [app.set] writes
      a setting;
    - [server.listen] answers at once (it registers the callback and starts
      binding, or it throws), the outcome of the bind arrives later from the
      operating system ([settle]);
    - [getLogger] makes a new logger object at every call; the level of a
      logger is the level of its category, which all loggers of the category
      share. *)

From stdpp Require Import gmap strings list pretty.

Local Open Scope Z_scope.

Set Warnings "-register-all".

(** ** JavaScript values handed through to the middleware factories *)

Module Js.

Inductive Val :=
| Undefined
| Null
| Bool (b : bool)
| Num (n : Z)
| Str (s : string)
| Arr (xs : list Val)
| Obj (fields : list (string * Val))
| Fun (name : string).

(** [v ?? d]: the right operand replaces [undefined] and [null] only. *)
Definition nullish (v : Val) : bool :=
  match v with
  | Undefined | Null => true
  | _ => false
  end.

Definition coalesce (v d : Val) : Val := if nullish v then d else v.

(** [typeof v === 'string'] *)
Definition is_string (v : Val) : bool :=
  match v with
  | Str _ => true
  | _ => false
  end.

(** [v.name]: the property of an object, [undefined] when it has none (of
    two entries with one name the later counts). *)
Definition field (name : string) (v : Val) : Val :=
  match v with
  | Obj fields =>
      match List.find (λ kv, String.eqb (fst kv) name) (rev fields) with
      | Some kv => snd kv
      | None => Undefined
      end
  | _ => Undefined
  end.

End Js.

Infix "??" := Js.coalesce (at level 45, left associativity).

(** ** log4js *)

Module Log4js.

(** A logger object: [getLogger(category)] makes a new one at every call,
    [id] tells the objects apart. *)
Record Logger := { id : nat; category : string }.

Record Call := { call_category : string; call_level : string; call_message : string }.

(** The module-wide state of the library: the level of every configured
    category, the logging calls made so far, and the number of logger
    objects made. *)
Record State := { levels : gmap string string; calls : list Call; made : nat }.

Definition getLogger (name : string) (st : State) : Logger * State :=
  ({| id := made st; category := name |},
   {| levels := levels st; calls := calls st; made := S (made st) |}).

(** [logger.level = lvl]: the level is kept per category. *)
Definition set_level (lg : Logger) (lvl : string) (st : State) : State :=
  {| levels := <[category lg := lvl]> (levels st); calls := calls st; made := made st |}.

(** [logger.level] *)
Definition level (lg : Logger) (st : State) : option string :=
  levels st !! category lg.

Definition log (lvl : string) (lg : Logger) (msg : string) (st : State) : State :=
  {| levels := levels st;
     calls := calls st ++ [{| call_category := category lg;
                              call_level := lvl;
                              call_message := msg |}];
     made := made st |}.

Definition debug := log "debug".
Definition info := log "info".

End Log4js.

(** ** express and the middleware factories *)

Module Express.

(** What a factory call returns: the factory and the arguments it got. *)
Inductive Middleware :=
| fileUpload (options : Js.Val)
| cors (options : Js.Val)
| cookieParser (secret options : Js.Val)
| bodyParser_urlencoded (options : Js.Val)
| bodyParser_json (options : Js.Val)
| methodOverride (getter options : Js.Val)
| session (options : Js.Val)
| static (root : string).

(** The exception a factory throws instead of returning a handler.
    [express.static(root)] refuses an empty root ("root path required");
    the session factory refuses options whose [secret] is an empty array.
    The other factories are taken to accept what they are given. *)
Definition refused (fn : Middleware) : option string :=
  match fn with
  | static root =>
      if decide (root = ""%string) then Some "TypeError: root path required"%string
      else None
  | session options =>
      match Js.field "secret" options with
      | Js.Arr [] =>
          Some "TypeError: secret option array must contain one or more strings"%string
      | _ => None
      end
  | _ => None
  end.

(** One stage of the pipeline: [mount] is the path given to [app.use], if
    one was given. *)
Record Layer := { mount : option string; handle : Middleware }.

Record App := { stack : list Layer; settings : gmap string string }.

(** [express()] *)
Definition create : App := {| stack := []; settings := ∅ |}.

(** [app.use(fn)] *)
Definition use (fn : Middleware) (a : App) : App :=
  {| stack := stack a ++ [{| mount := None; handle := fn |}];
     settings := settings a |}.

(** [app.use(path, fn)] *)
Definition use_at (path : string) (fn : Middleware) (a : App) : App :=
  {| stack := stack a ++ [{| mount := Some path; handle := fn |}];
     settings := settings a |}.

(** [app.set(name, value)] *)
Definition set (name value : string) (a : App) : App :=
  {| stack := stack a; settings := <[name := value]> (settings a) |}.

End Express.

(** ** The facade object *)

Definition FOX_SERVER_DEFAULT_PORT : Z := 8081.

Record FoxServerProps := { props_host : option string; props_port : option Z }.

(** All five fields are [readonly]: a facade is the tuple of its references
    and of the configured host and port.  Two facades never share [app] or
    [server], so equality of the records is identity of the objects. *)
Record FoxServer := {
  app : nat;
  server : nat;
  logger : Log4js.Logger;
  host : option string;
  port : Z
}.

(** How a call of a method that returns the facade ends. *)
Inductive Completion :=
| Returns (value : FoxServer)
| Throws (error : string).

(** ** Promises and node's http listener *)

Module Promise.

Inductive State :=
| Pending
| Fulfilled (value : FoxServer)
| Rejected (reason : string).

(** Settling a promise that is already settled does nothing. *)
Definition resolve (v : FoxServer) (s : State) : State :=
  match s with
  | Pending => Fulfilled v
  | _ => s
  end.

Definition reject (e : string) (s : State) : State :=
  match s with
  | Pending => Rejected e
  | _ => s
  end.

End Promise.

(** The arrow function that [start] passes to [listen]: it closes over the
    facade and over the [resolve] of the promise being built. *)
Inductive Callback :=
| OnListening (this : FoxServer) (promise : nat).

Module Http.

Record AddressInfo := { address : string; family : string; port : Z }.

(** What [server.address()] returns when it is not [null]. *)
Inductive Address :=
| Pipe (path : string)
| Inet (info : AddressInfo).

Record ListenOptions := { opt_port : Z; opt_host : option string }.

Inductive Phase :=
| Idle
| Binding (options : ListenOptions)
| Listening (bound : Address).

Record Server := {
  requestListener : nat;
  phase : Phase;
  once_listening : list Callback;
  error_events : list string
}.

(** [http.createServer(app)] *)
Definition createServer (app : nat) : Server :=
  {| requestListener := app; phase := Idle;
     once_listening := []; error_events := [] |}.

(** [server.address()] of the server object *)
Definition address_of (s : Server) : option Address :=
  match phase s with
  | Listening a => Some a
  | _ => None
  end.

Definition valid_port (p : Z) : bool := (0 <=? p) && (p <? 65536).

(** Whether the server has its handle: a server that is listening has, and
    so has one that is binding without a host, because node makes the handle
    inside [listen] then.  While the lookup of a host is going on there is
    no handle yet. *)
Definition has_handle (s : Server) : bool :=
  match phase s with
  | Idle => false
  | Binding o => match opt_host o with Some _ => false | None => true end
  | Listening _ => true
  end.

(** [server.listen(options, cb)].  A server that has its handle throws.
    Otherwise the callback is registered for the next 'listening' event, and
    then the port is checked: a port outside 0..65535 throws, a good one
    starts the bind.  The outcome of every bind reaches the listener with
    the answer of the operating system.  Node does so for a listen with a
    host, where the lookup comes first; without a host it binds before
    [listen] returns, so there the address is set already when [listen]
    returns and only the 'listening' event comes later.  The model has one
    [Binding] phase for both: between [listen] and the answer it shows the
    listener of a listen with a host. *)
Definition listen (o : ListenOptions) (cb : Callback) (s : Server)
  : Server * option string :=
  if has_handle s then (s, Some "ERR_SERVER_ALREADY_LISTEN"%string)
  else
    let s1 := {| requestListener := requestListener s; phase := phase s;
                 once_listening := once_listening s ++ [cb];
                 error_events := error_events s |} in
    if valid_port (opt_port o)
    then ({| requestListener := requestListener s1; phase := Binding o;
             once_listening := once_listening s1;
             error_events := error_events s1 |}, None)
    else (s1, Some "ERR_SOCKET_BAD_PORT"%string).

(** What the operating system answers to a bind. *)
Inductive Outcome :=
| Bound (info : AddressInfo)
| Failed (code : string).

End Http.

(** What [console.log] received: the banner is the call of the renderer. *)
Inductive ConsoleLine :=
| figlet_textSync (text font verticalLayout : string).

(** ** The store *)

Record World := {
  apps : gmap nat Express.App;
  servers : gmap nat Http.Server;
  promises : gmap nat Promise.State;
  log4js : Log4js.State;
  console : list ConsoleLine
}.

Definition with_apps (f : gmap nat Express.App → gmap nat Express.App) (w : World) : World :=
  {| apps := f (apps w); servers := servers w; promises := promises w;
     log4js := log4js w; console := console w |}.

Definition with_servers (f : gmap nat Http.Server → gmap nat Http.Server) (w : World) : World :=
  {| apps := apps w; servers := f (servers w); promises := promises w;
     log4js := log4js w; console := console w |}.

Definition with_promises (f : gmap nat Promise.State → gmap nat Promise.State) (w : World) : World :=
  {| apps := apps w; servers := servers w; promises := f (promises w);
     log4js := log4js w; console := console w |}.

Definition with_log4js (f : Log4js.State → Log4js.State) (w : World) : World :=
  {| apps := apps w; servers := servers w; promises := promises w;
     log4js := f (log4js w); console := console w |}.

Definition console_log (l : ConsoleLine) (w : World) : World :=
  {| apps := apps w; servers := servers w; promises := promises w;
     log4js := log4js w; console := console w ++ [l] |}.

Definition empty_world : World :=
  {| apps := ∅; servers := ∅; promises := ∅;
     log4js := {| Log4js.levels := ∅; Log4js.calls := []; Log4js.made := 0 |};
     console := [] |}.

(** Allocation of a new object in a store. *)
Definition alloc {A} (x : A) (m : gmap nat A) : nat * gmap nat A :=
  let r := fresh (dom m) in (r, <[r := x]> m).

(** ** class FoxServer *)

(** [new FoxServer(props)]; [None] is the omitted argument, replaced by [{}].
    The field initialiser [logger = getLogger('server')] runs first and
    gives the facade a logger object of its own. *)
Definition new_FoxServer (props : option FoxServerProps) (w : World) : FoxServer * World :=
  let props := default {| props_host := None; props_port := None |} props in
  let '(lg, log4js1) := Log4js.getLogger "server" (log4js w) in
  let w := with_log4js (λ _, log4js1) w in
  let '(a, apps1) := alloc Express.create (apps w) in
  let w := with_apps (λ _, apps1) w in
  let '(s, servers1) := alloc (Http.createServer a) (servers w) in
  let w := with_servers (λ _, servers1) w in
  let this := {| app := a; server := s; logger := lg;
                 host := props_host props;
                 port := default FOX_SERVER_DEFAULT_PORT (props_port props) |} in
  (this, with_log4js (Log4js.set_level (logger this) "debug") w).

(** [createFoxServer(options)] of index.ts *)
Definition createFoxServer (options : option FoxServerProps) (w : World) : FoxServer * World :=
  new_FoxServer options w.

Definition getExpressApp (this : FoxServer) : nat := app this.

Definition getHttpServer (this : FoxServer) : nat := server this.

Definition getLogger (this : FoxServer) : Log4js.Logger := logger this.

(** [this.getHttpServer().address()] *)
Definition address (srv : nat) (w : World) : option Http.Address :=
  s ← servers w !! srv; Http.address_of s.

Definition getPort (this : FoxServer) (w : World) : Z :=
  match address (getHttpServer this) w with
  | Some (Http.Inet info) => Http.port info
  | _ => port this
  end.

Definition getHost (this : FoxServer) (w : World) : option string :=
  match address (getHttpServer this) w with
  | Some (Http.Inet info) =>
      if decide (Http.address info = "::"%string) then Some "localhost"%string
      else Some (Http.address info)
  | _ => host this
  end.

(** [this.getExpressApp().use(fn)] and its siblings, on the store *)
Definition on_app (f : Express.App → Express.App) (this : FoxServer) (w : World) : World :=
  with_apps (alter f (getExpressApp this)) w.

Definition log_debug (this : FoxServer) (msg : string) (w : World) : World :=
  with_log4js (Log4js.debug (getLogger this) msg) w.

Definition log_info (this : FoxServer) (msg : string) (w : World) : World :=
  with_log4js (Log4js.info (getLogger this) msg) w.

Definition default_upload_options : Js.Val :=
  Js.Obj [("limits"%string, Js.Obj [("fileSize"%string, Js.Num (50 * 1024 * 1024))])].

Definition useFilesUpload (options : Js.Val) (this : FoxServer) (w : World) : FoxServer * World :=
  let w := on_app (Express.use (Express.fileUpload (options ?? default_upload_options))) this w in
  let w := log_debug this "USE: file upload" w in
  (this, w).

Definition useCors (options : Js.Val) (this : FoxServer) (w : World) : FoxServer * World :=
  let w := on_app (Express.use (Express.cors options)) this w in
  let w := log_debug this "USE: cors" w in
  (this, w).

Definition useCookieParser (secret options : Js.Val) (this : FoxServer) (w : World)
  : FoxServer * World :=
  let w := on_app (Express.use (Express.cookieParser secret options)) this w in
  let w := log_debug this "USE: cookie parser" w in
  (this, w).

Definition default_urlencoded_options : Js.Val :=
  Js.Obj [("extended"%string, Js.Bool true)].

Definition useBodyParserURLEncode (options : Js.Val) (this : FoxServer) (w : World)
  : FoxServer * World :=
  let w := on_app (Express.use
                     (Express.bodyParser_urlencoded (options ?? default_urlencoded_options)))
                  this w in
  let w := log_debug this "USE: body parser - urlencode" w in
  (this, w).

Definition useBodyParserJSON (options : Js.Val) (this : FoxServer) (w : World)
  : FoxServer * World :=
  let w := on_app (Express.use (Express.bodyParser_json options)) this w in
  let w := log_debug this "USE: body parser - json" w in
  (this, w).

Definition useRenderEngine (engine path : string) (this : FoxServer) (w : World)
  : FoxServer * World :=
  let w := on_app (Express.set "views" path) this w in
  let w := on_app (Express.set "view engine" engine) this w in
  let w := log_debug this "USE: render engine" w in
  (this, w).

Definition useMethodOverride (getter options : Js.Val) (this : FoxServer) (w : World)
  : FoxServer * World :=
  let w := on_app (Express.use (Express.methodOverride getter options)) this w in
  let w := log_debug this "USE: method override" w in
  (this, w).

(** The record built for a bare secret. *)
Definition session_options_of_secret (secret : Js.Val) : Js.Val :=
  Js.Obj [("secret"%string, secret);
          ("resave"%string, Js.Bool true);
          ("saveUninitialized"%string, Js.Bool true)].

(** [session(..)] is evaluated before [use] is called: when it throws,
    nothing is registered, nothing is logged and nothing is returned. *)
Definition useSession (options : Js.Val) (this : FoxServer) (w : World) : Completion * World :=
  let fn := Express.session
              (if Js.is_string options
               then session_options_of_secret options
               else options) in
  match Express.refused fn with
  | Some e => (Throws e, w)
  | None =>
      let w := on_app (Express.use fn) this w in
      let w := log_debug this "USE: session" w in
      (Returns this, w)
  end.

(** The same for [express.static(path)]. *)
Definition useStatic (url path : string) (this : FoxServer) (w : World) : Completion * World :=
  let fn := Express.static path in
  match Express.refused fn with
  | Some e => (Throws e, w)
  | None =>
      let w := on_app (Express.use_at url fn) this w in
      let w := log_debug this "USE: static" w in
      (Returns this, w)
  end.

(** ** Starting the listener *)

(** [this.getHttpServer().listen(options, cb)] on the store: the new world
    and the exception thrown, if any.  A facade's reference always points to
    its server; the other branch only makes the function total. *)
Definition listen (srv : nat) (o : Http.ListenOptions) (cb : Callback) (w : World)
  : World * option string :=
  match servers w !! srv with
  | Some s =>
      let '(s', thrown) := Http.listen o cb s in
      (with_servers <[srv := s']> w, thrown)
  | None => (w, None)
  end.

(** [new Promise(executor)]: the executor runs at once with the [resolve] of
    the new promise; an exception that escapes it rejects the promise. *)
Definition new_Promise (executor : nat → World → World * option string) (w : World)
  : nat * World :=
  let '(p, promises1) := alloc Promise.Pending (promises w) in
  let w := with_promises (λ _, promises1) w in
  let '(w, thrown) := executor p w in
  match thrown with
  | Some e => (p, with_promises (alter (Promise.reject e) p) w)
  | None => (p, w)
  end.

Definition start (this : FoxServer) (w : World) : nat * World :=
  let w := console_log (figlet_textSync "FOX SERVER" "Soft" "fitted") w in
  let w := log_info this "Запуск сервера..." w in
  new_Promise
    (λ resolve,
       listen (getHttpServer this)
              {| Http.opt_port := port this; Http.opt_host := host this |}
              (OnListening this resolve))
    w.

(** How a template literal prints [string | undefined]. *)
Definition template_of_host (h : option string) : string := default "undefined"%string h.

(** The body of the arrow function of [start]. *)
Definition run_callback (cb : Callback) (w : World) : World :=
  match cb with
  | OnListening this resolve =>
      let w := log_info this
                 ("Сервер запущен: http://" +:+ template_of_host (getHost this w)
                    +:+ ":" +:+ pretty (getPort this w)) w in
      with_promises (alter (Promise.resolve this) resolve) w
  end.

(** The operating system answers the bind that server [srv] is waiting for.
    Bound: [address()] becomes the bound address and the 'listening'
    callbacks run, once each, in the order they were registered.  Failed: the
    server emits 'error' and is idle again.  A server that is not binding is
    left alone. *)
Definition settle (srv : nat) (o : Http.Outcome) (w : World) : World :=
  match servers w !! srv with
  | Some s =>
      match Http.phase s, o with
      | Http.Binding _, Http.Bound info =>
          let s' := {| Http.requestListener := Http.requestListener s;
                       Http.phase := Http.Listening (Http.Inet info);
                       Http.once_listening := [];
                       Http.error_events := Http.error_events s |} in
          foldl (λ w cb, run_callback cb w) (with_servers <[srv := s']> w)
                (Http.once_listening s)
      | Http.Binding _, Http.Failed code =>
          let s' := {| Http.requestListener := Http.requestListener s;
                       Http.phase := Http.Idle;
                       Http.once_listening := Http.once_listening s;
                       Http.error_events := Http.error_events s ++ [code] |} in
          with_servers <[srv := s']> w
      | _, _ => w
      end
  | None => w
  end.

(** ** Sequences of configuration calls *)

Inductive UseCall :=
| FilesUpload (options : Js.Val)
| Cors (options : Js.Val)
| CookieParser (secret options : Js.Val)
| BodyParserURLEncode (options : Js.Val)
| BodyParserJSON (options : Js.Val)
| MethodOverride (getter options : Js.Val)
| Session (options : Js.Val)
| Static (url path : string).

Inductive ConfigCall :=
| Use (c : UseCall)
| RenderEngine (engine path : string).

(** A method that always returns, as a call that may throw. *)
Definition returned (r : FoxServer * World) : Completion * World := (Returns r.1, r.2).

Definition call_use (c : UseCall) (this : FoxServer) (w : World) : Completion * World :=
  match c with
  | FilesUpload o => returned (useFilesUpload o this w)
  | Cors o => returned (useCors o this w)
  | CookieParser s o => returned (useCookieParser s o this w)
  | BodyParserURLEncode o => returned (useBodyParserURLEncode o this w)
  | BodyParserJSON o => returned (useBodyParserJSON o this w)
  | MethodOverride g o => returned (useMethodOverride g o this w)
  | Session o => useSession o this w
  | Static u p => useStatic u p this w
  end.

Definition call (c : ConfigCall) (this : FoxServer) (w : World) : Completion * World :=
  match c with
  | Use u => call_use u this w
  | RenderEngine e p => returned (useRenderEngine e p this w)
  end.

(** [this.m1(..).m2(..)...]: each call is made on what the previous one
    returned, and the first call that throws ends the chain.  The result is
    the facade the chain has reached and the world it leaves behind;
    [chain_throws] is the exception that ended it, if one did. *)
Fixpoint chain (cs : list ConfigCall) (this : FoxServer) (w : World) : FoxServer * World :=
  match cs with
  | [] => (this, w)
  | c :: cs =>
      match call c this w with
      | (Returns r, w') => chain cs r w'
      | (Throws _, w') => (this, w')
      end
  end.

Fixpoint chain_throws (cs : list ConfigCall) (this : FoxServer) (w : World) : option string :=
  match cs with
  | [] => None
  | c :: cs =>
      match call c this w with
      | (Returns r, w') => chain_throws cs r w'
      | (Throws e, _) => Some e
      end
  end.

(** The pipeline of a facade: the stack of its express application. *)
Definition pipeline (this : FoxServer) (w : World) : list Express.Layer :=
  from_option Express.stack [] (apps w !! getExpressApp this).

Definition promise_state (p : nat) (w : World) : option Promise.State := promises w !! p.

(** ** What one configuration call does to the application *)

(** The layer a "use" method hands to [app.use]. *)
Definition layer_of (u : UseCall) : Express.Layer :=
  match u with
  | FilesUpload o =>
      {| Express.mount := None;
         Express.handle := Express.fileUpload (o ?? default_upload_options) |}
  | Cors o => {| Express.mount := None; Express.handle := Express.cors o |}
  | CookieParser s o =>
      {| Express.mount := None; Express.handle := Express.cookieParser s o |}
  | BodyParserURLEncode o =>
      {| Express.mount := None;
         Express.handle := Express.bodyParser_urlencoded (o ?? default_urlencoded_options) |}
  | BodyParserJSON o =>
      {| Express.mount := None; Express.handle := Express.bodyParser_json o |}
  | MethodOverride g o =>
      {| Express.mount := None; Express.handle := Express.methodOverride g o |}
  | Session o =>
      {| Express.mount := None;
         Express.handle :=
           Express.session (if Js.is_string o then session_options_of_secret o else o) |}
  | Static u p => {| Express.mount := Some u; Express.handle := Express.static p |}
  end.

Definition push_layer (l : Express.Layer) (a : Express.App) : Express.App :=
  {| Express.stack := Express.stack a ++ [l]; Express.settings := Express.settings a |}.

(** The exception that ends a configuration call before it does anything:
    the one its factory throws for the arguments of the call. *)
Definition refusal (c : ConfigCall) : option string :=
  match c with
  | Use u => Express.refused (Express.handle (layer_of u))
  | RenderEngine _ _ => None
  end.

Definition effect_on_app (c : ConfigCall) (a : Express.App) : Express.App :=
  match refusal c, c with
  | Some _, _ => a
  | None, Use u => push_layer (layer_of u) a
  | None, RenderEngine e p => Express.set "view engine" e (Express.set "views" p a)
  end.

(** The calls of a chain that are made and return: those before the first
    call that throws. *)
Fixpoint performed (cs : list ConfigCall) : list ConfigCall :=
  match cs with
  | [] => []
  | c :: cs => match refusal c with None => c :: performed cs | Some _ => [] end
  end.

(** The calls that return, among calls made one by one. *)
Definition returning (cs : list ConfigCall) : list ConfigCall :=
  filter (λ c, refusal c = None) cs.

Definition message_of (c : ConfigCall) : string :=
  match c with
  | Use (FilesUpload _) => "USE: file upload"
  | Use (Cors _) => "USE: cors"
  | Use (CookieParser _ _) => "USE: cookie parser"
  | Use (BodyParserURLEncode _) => "USE: body parser - urlencode"
  | Use (BodyParserJSON _) => "USE: body parser - json"
  | Use (MethodOverride _ _) => "USE: method override"
  | Use (Session _) => "USE: session"
  | Use (Static _ _) => "USE: static"
  | RenderEngine _ _ => "USE: render engine"
  end.

(** The layers a sequence of calls adds, in the order of the calls. *)
Definition layers_of (cs : list ConfigCall) : list Express.Layer :=
  omap (λ c, match c with Use u => Some (layer_of u) | RenderEngine _ _ => None end) cs.

(** The spec's wording of a wildcard bind address: the unspecified address
    of IPv6 or of IPv4. *)
Definition wildcard_address (a : string) : bool :=
  bool_decide (a = "::"%string) || bool_decide (a = "0.0.0.0"%string).

(** The spec's wording of the session record equivalent to the bare secret [s]. *)
Definition session_record (s : string) : Js.Val :=
  Js.Obj [("secret"%string, Js.Str s);
          ("resave"%string, Js.Bool true);
          ("saveUninitialized"%string, Js.Bool true)].

(** The port given to the constructor, if any. *)
Definition explicit_port (props : option FoxServerProps) : option Z :=
  props ≫= props_port.

(** The effect of a sequence of calls on the application, call after call. *)
Definition effects_on_app (cs : list ConfigCall) (a : Express.App) : Express.App :=
  foldl (λ a c, effect_on_app c a) a cs.

(** ** A facade as a program builds it *)

(** [new FoxServer(props).m1(..)...mk(..)] *)
Definition configured (props : option FoxServerProps) (cs : list ConfigCall) (w0 : World)
  : FoxServer * World :=
  let '(this, w) := new_FoxServer props w0 in chain cs this w.

(** The listener of [this] after [listen] accepted the call of [start]. *)
Definition binding_server (this : FoxServer) (p : nat) (s : Http.Server) : Http.Server :=
  {| Http.requestListener := Http.requestListener s;
     Http.phase := Http.Binding {| Http.opt_port := port this; Http.opt_host := host this |};
     Http.once_listening := Http.once_listening s ++ [OnListening this p];
     Http.error_events := Http.error_events s |}.

(** ** Inputs of the concrete runs *)

Definition props_port_only (p : Z) : option FoxServerProps :=
  Some {| props_host := None; props_port := Some p |}.

Definition props_host_only (h : string) : option FoxServerProps :=
  Some {| props_host := Some h; props_port := None |}.

Definition ipv6_any (p : Z) : Http.AddressInfo :=
  {| Http.address := "::"; Http.family := "IPv6"; Http.port := p |}.

Definition ipv4_any (p : Z) : Http.AddressInfo :=
  {| Http.address := "0.0.0.0"; Http.family := "IPv4"; Http.port := p |}.

(** Construct, configure, start, and let the bind succeed with [info]. *)
Definition listening (props : option FoxServerProps) (cs : list ConfigCall)
    (info : Http.AddressInfo) (w0 : World) : FoxServer * nat * World :=
  let '(this, w) := configured props cs w0 in
  let '(p, w) := start this w in
  (this, p, settle (getHttpServer this) (Http.Bound info) w).

(** ** The life of a facade *)

(** What can happen to a facade once it is built: a configuration method is
    called on it, [start()] is called on it, or the operating system answers
    a bind of its listener. *)
Inductive Action :=
| Configure (c : ConfigCall)
| Start
| Answer (o : Http.Outcome).

(** The world after the action; a configuration call that throws leaves it
    as it was. *)
Definition act (this : FoxServer) (w : World) (a : Action) : World :=
  match a with
  | Configure c => (call c this w).2
  | Start => (start this w).2
  | Answer o => settle (getHttpServer this) o w
  end.

Definition life (this : FoxServer) (acts : list Action) (w : World) : World :=
  foldl (act this) w acts.

(** The configuration calls among the actions, in their order. *)
Definition configurations (acts : list Action) : list ConfigCall :=
  omap (λ a, match a with Configure c => Some c | _ => None end) acts.

Definition banner : ConsoleLine := figlet_textSync "FOX SERVER" "Soft" "fitted".

(** One banner for every [start()] call among the actions. *)
Definition banners (acts : list Action) : list ConsoleLine :=
  omap (λ a, match a with Start => Some banner | _ => None end) acts.

(** The line one configuration call logs. *)
Definition debug_line (this : FoxServer) (c : ConfigCall) : Log4js.Call :=
  {| Log4js.call_category := Log4js.category (getLogger this);
     Log4js.call_level := "debug";
     Log4js.call_message := message_of c |}.

(** The host and the port as [getHost()] and [getPort()] read them off a
    bound address. *)
Definition host_of_bound (info : Http.AddressInfo) : string :=
  if decide (Http.address info = "::"%string) then "localhost"%string
  else Http.address info.

(** The line the callback of [start] logs once the listener is bound. *)
Definition serving_line (this : FoxServer) (info : Http.AddressInfo) : Log4js.Call :=
  {| Log4js.call_category := Log4js.category (getLogger this);
     Log4js.call_level := "info";
     Log4js.call_message :=
       "Сервер запущен: http://" +:+ host_of_bound info +:+ ":" +:+ pretty (Http.port info) |}.

(** A world in which the listener of [this] was bound to a pipe by a direct
    call on [getHttpServer()]. *)
Definition bound_to_pipe (path : string) (this : FoxServer) (w : World) : World :=
  with_servers
    (alter (λ s, {| Http.requestListener := Http.requestListener s;
                    Http.phase := Http.Listening (Http.Pipe path);
                    Http.once_listening := Http.once_listening s;
                    Http.error_events := Http.error_events s |})
           (getHttpServer this))
    w.

(** The 'listening' callbacks of a listener, run in their order. *)
Definition run_callbacks (cbs : list Callback) (w : World) : World :=
  foldl (λ w cb, run_callback cb w) w cbs.

(** The listener after an answer: bound if it was binding and the bind
    succeeded, idle with one more 'error' if it failed, as it was otherwise. *)
Definition answered (o : Http.Outcome) (s : Http.Server) : Http.Server :=
  match Http.phase s, o with
  | Http.Binding _, Http.Bound info =>
      {| Http.requestListener := Http.requestListener s;
         Http.phase := Http.Listening (Http.Inet info);
         Http.once_listening := [];
         Http.error_events := Http.error_events s |}
  | Http.Binding _, Http.Failed code =>
      {| Http.requestListener := Http.requestListener s;
         Http.phase := Http.Idle;
         Http.once_listening := Http.once_listening s;
         Http.error_events := Http.error_events s ++ [code] |}
  | _, _ => s
  end.

(** The listener of [this] after the [listen] call of [start], whose promise
    is [p]. *)
Definition listened (this : FoxServer) (p : nat) (s : Http.Server) : Http.Server :=
  (Http.listen {| Http.opt_port := port this; Http.opt_host := host this |}
               (OnListening this p) s).1.

(** * Properties *)

(** ** Allocation *)

Lemma alloc_lookup {A} (x : A) (m : gmap nat A) :
  (alloc x m).2 !! (alloc x m).1 = Some x.
Proof. unfold alloc. cbn. apply lookup_insert_eq. Qed.

Lemma alloc_fresh {A} (x : A) (m : gmap nat A) : m !! (alloc x m).1 = None.
Proof. unfold alloc. cbn. apply not_elem_of_dom, is_fresh. Qed.

Lemma alloc_other {A} (x : A) (m : gmap nat A) (r : nat) :
  is_Some (m !! r) → (alloc x m).2 !! r = m !! r.
Proof.
  intros Hr. unfold alloc. cbn. apply lookup_insert_ne.
  intros Heq. pose proof (alloc_fresh x m) as Hf. unfold alloc in Hf. cbn in Hf.
  rewrite Heq in Hf. rewrite Hf in Hr. by destruct Hr.
Qed.

(** ** One call *)

Lemma on_app_compose f g this w :
  on_app f this (on_app g this w) = on_app (f ∘ g) this w.
Proof.
  unfold on_app, with_apps. cbn. f_equal. apply alter_alter_eq.
Qed.

(** A call that its factory refuses throws and leaves the world as it was;
    any other call registers, logs its line and returns the facade. *)
Lemma call_unfold c this w :
  call c this w
  = match refusal c with
    | Some e => (Throws e, w)
    | None =>
        (Returns this, log_debug this (message_of c) (on_app (effect_on_app c) this w))
    end.
Proof.
  destruct c as [[]|]; try reflexivity.
  - cbn [call call_use]. unfold useSession, effect_on_app. cbn [refusal layer_of Express.handle].
    by destruct (Express.refused _).
  - cbn [call call_use]. unfold useStatic, effect_on_app. cbn [refusal layer_of Express.handle].
    by destruct (Express.refused _).
  - cbn [call refusal]. unfold useRenderEngine, returned. cbv zeta. cbn [fst snd].
    rewrite on_app_compose. done.
Qed.

Lemma call_completion c this w :
  (call c this w).1 = match refusal c with Some e => Throws e | None => Returns this end.
Proof. rewrite call_unfold. by destruct (refusal c). Qed.

Lemma call_refused c this w e : refusal c = Some e → call c this w = (Throws e, w).
Proof. intros He. by rewrite call_unfold, He. Qed.

Lemma effect_refused c a e : refusal c = Some e → effect_on_app c a = a.
Proof. intros He. unfold effect_on_app. by rewrite He. Qed.

Lemma call_apps c this w :
  apps (call c this w).2 = alter (effect_on_app c) (app this) (apps w).
Proof.
  rewrite call_unfold. destruct (refusal c) as [e|] eqn:He; [|done].
  cbn. symmetry. apply alter_id. intros a _. by apply (effect_refused c a e).
Qed.

Lemma call_servers c this w : servers (call c this w).2 = servers w.
Proof. rewrite call_unfold. by destruct (refusal c). Qed.

Lemma call_promises c this w : promises (call c this w).2 = promises w.
Proof. rewrite call_unfold. by destruct (refusal c). Qed.

Lemma call_levels c this w :
  Log4js.levels (log4js (call c this w).2) = Log4js.levels (log4js w).
Proof. rewrite call_unfold. by destruct (refusal c). Qed.

Lemma call_console c this w : console (call c this w).2 = console w.
Proof. rewrite call_unfold. by destruct (refusal c). Qed.

Lemma call_calls c this w :
  Log4js.calls (log4js (call c this w).2)
  = Log4js.calls (log4js w)
    ++ match refusal c with Some _ => [] | None => [debug_line this c] end.
Proof.
  rewrite call_unfold. destruct (refusal c); cbn; [by rewrite app_nil_r | done].
Qed.

(** ** A chain of calls *)

Lemma chain_cons c cs this w :
  chain (c :: cs) this w
  = match refusal c with
    | Some _ => (this, w)
    | None => chain cs this (call c this w).2
    end.
Proof. cbn [chain]. rewrite call_unfold. by destruct (refusal c). Qed.

Lemma chain_throws_cons c cs this w :
  chain_throws (c :: cs) this w
  = match refusal c with
    | Some e => Some e
    | None => chain_throws cs this (call c this w).2
    end.
Proof. cbn [chain_throws]. rewrite call_unfold. by destruct (refusal c). Qed.

(** A part of the world that no single call touches is untouched by a chain:
    induction on the calls, with the lemma for one call. *)
Ltac chain_frame cs w one_call :=
  revert w; induction cs as [|c ? IH]; intros w;
  [ reflexivity
  | rewrite chain_cons; destruct (refusal c);
    [ reflexivity | rewrite IH; apply one_call ] ].

Lemma chain_returns_this cs this w : (chain cs this w).1 = this.
Proof.
  revert w. induction cs as [|c cs IH]; intros w; [done|].
  rewrite chain_cons. destruct (refusal c); [done | apply IH].
Qed.

Lemma performed_cons c cs :
  performed (c :: cs) = match refusal c with Some _ => [] | None => c :: performed cs end.
Proof. done. Qed.

Lemma chain_apps cs this w :
  apps (chain cs this w).2 = alter (effects_on_app (performed cs)) (app this) (apps w).
Proof.
  revert w. induction cs as [|c cs IH]; intros w.
  - cbn. symmetry. apply alter_id. done.
  - rewrite chain_cons, performed_cons. destruct (refusal c) as [e|] eqn:He.
    + cbn. symmetry. by apply alter_id.
    + rewrite IH, call_apps.
      apply (alter_alter_eq (effects_on_app (performed cs)) (effect_on_app c)).
Qed.

(** A chain throws what its first refused call throws, and returns when no
    call is refused. *)
Lemma chain_throws_spec cs this w :
  chain_throws cs this w = list_find (λ c, is_Some (refusal c)) cs ≫= λ ic, refusal ic.2.
Proof.
  revert w. induction cs as [|c cs IH]; intros w; [done|].
  rewrite chain_throws_cons. cbn [list_find]. destruct (refusal c) as [e|] eqn:He.
  - rewrite decide_True by (by eexists). cbn. by rewrite He.
  - rewrite decide_False by (by intros [? ?]). rewrite IH.
    by destruct (list_find _ cs) as [[i c']|].
Qed.

Lemma performed_all cs : Forall (λ c, refusal c = None) cs → performed cs = cs.
Proof.
  induction 1 as [|c cs Hc _ IH]; [done|]. by rewrite performed_cons, Hc, IH.
Qed.

Lemma chain_returns cs this w :
  Forall (λ c, refusal c = None) cs → chain_throws cs this w = None.
Proof.
  intros Hall. revert w. induction Hall as [|c cs Hc _ IH]; intros w; [done|].
  by rewrite chain_throws_cons, Hc, IH.
Qed.

Lemma chain_servers cs this w : servers (chain cs this w).2 = servers w.
Proof. chain_frame cs w call_servers. Qed.

Lemma chain_promises cs this w : promises (chain cs this w).2 = promises w.
Proof. chain_frame cs w call_promises. Qed.

Lemma chain_levels cs this w :
  Log4js.levels (log4js (chain cs this w).2) = Log4js.levels (log4js w).
Proof. chain_frame cs w call_levels. Qed.

Lemma chain_console cs this w : console (chain cs this w).2 = console w.
Proof. chain_frame cs w call_console. Qed.

Lemma returning_cons c cs :
  returning (c :: cs)
  = match refusal c with Some _ => returning cs | None => c :: returning cs end.
Proof.
  unfold returning. rewrite filter_cons. destruct (refusal c) as [e|] eqn:He.
  - by rewrite decide_False.
  - by rewrite decide_True.
Qed.

Lemma returning_performed cs : returning (performed cs) = performed cs.
Proof.
  induction cs as [|c cs IH]; [done|]. rewrite performed_cons.
  destruct (refusal c) as [e|] eqn:He; [done|]. by rewrite returning_cons, He, IH.
Qed.

Lemma effects_cons c cs a :
  effects_on_app (c :: cs) a = effects_on_app cs (effect_on_app c a).
Proof. done. Qed.

Lemma effects_stack cs a :
  Express.stack (effects_on_app cs a) = Express.stack a ++ layers_of (returning cs).
Proof.
  revert a. induction cs as [|c cs IH]; intros a.
  - cbn. by rewrite app_nil_r.
  - rewrite effects_cons, IH, returning_cons. unfold effect_on_app.
    destruct (refusal c) as [e|] eqn:He; [done|].
    destruct c as [u|e p]; cbn.
    + by rewrite <- app_assoc.
    + done.
Qed.

Lemma effects_settings (us : list UseCall) a :
  Express.settings (effects_on_app (Use <$> us) a) = Express.settings a.
Proof.
  revert a. induction us as [|u us IH]; intros a; [done|].
  rewrite fmap_cons, effects_cons, IH. unfold effect_on_app.
  by destruct (refusal (Use u)).
Qed.

Lemma performed_use_settings (us : list UseCall) a :
  Express.settings (effects_on_app (performed (Use <$> us)) a) = Express.settings a.
Proof.
  revert a. induction us as [|u us IH]; intros a; [done|].
  rewrite fmap_cons, performed_cons. destruct (refusal (Use u)) as [e|] eqn:He; [done|].
  rewrite effects_cons, IH. unfold effect_on_app. by rewrite He.
Qed.

Lemma layers_of_use (us : list UseCall) : layers_of (Use <$> us) = layer_of <$> us.
Proof. induction us as [|u us IH]; [done|]. cbn. f_equal. exact IH. Qed.

Lemma chain_pipeline cs this w :
  is_Some (apps w !! app this) →
  pipeline this (chain cs this w).2 = pipeline this w ++ layers_of (performed cs).
Proof.
  intros [a Ha]. unfold pipeline, getExpressApp.
  rewrite chain_apps, lookup_alter_eq, Ha. cbn.
  by rewrite effects_stack, returning_performed.
Qed.

Lemma chain_address cs this w srv :
  address srv (chain cs this w).2 = address srv w.
Proof. unfold address. by rewrite chain_servers. Qed.

Lemma chain_getPort cs this w : getPort this (chain cs this w).2 = getPort this w.
Proof. unfold getPort. by rewrite chain_address. Qed.

Lemma chain_getHost cs this w : getHost this (chain cs this w).2 = getHost this w.
Proof. unfold getHost. by rewrite chain_address. Qed.

(** ** Construction *)

Lemma new_port props w0 :
  port (new_FoxServer props w0).1 = default FOX_SERVER_DEFAULT_PORT (explicit_port props).
Proof. by destruct props as [[h [p|]]|]. Qed.

Lemma new_host props w0 : host (new_FoxServer props w0).1 = props ≫= props_host.
Proof. by destruct props as [[h p]|]. Qed.

Lemma new_logger props w0 :
  logger (new_FoxServer props w0).1
  = {| Log4js.id := Log4js.made (log4js w0); Log4js.category := "server" |}.
Proof. done. Qed.

Lemma new_made props w0 :
  Log4js.made (log4js (new_FoxServer props w0).2) = S (Log4js.made (log4js w0)).
Proof. done. Qed.

Lemma new_app props w0 :
  apps (new_FoxServer props w0).2 !! app (new_FoxServer props w0).1 = Some Express.create.
Proof. unfold new_FoxServer. cbn. apply lookup_insert_eq. Qed.

Lemma new_server props w0 :
  servers (new_FoxServer props w0).2 !! server (new_FoxServer props w0).1
  = Some (Http.createServer (app (new_FoxServer props w0).1)).
Proof. unfold new_FoxServer. cbn. apply lookup_insert_eq. Qed.

(** The application and the listener of a new facade are new objects, and
    the objects that were there are left as they were. *)
Lemma new_app_fresh props w0 : apps w0 !! app (new_FoxServer props w0).1 = None.
Proof. apply (alloc_fresh Express.create). Qed.

Lemma new_server_fresh props w0 : servers w0 !! server (new_FoxServer props w0).1 = None.
Proof.
  apply (alloc_fresh (Http.createServer (alloc Express.create (apps w0)).1)).
Qed.

Lemma new_keeps_apps props w0 r :
  is_Some (apps w0 !! r) → apps (new_FoxServer props w0).2 !! r = apps w0 !! r.
Proof. apply (alloc_other Express.create). Qed.

Lemma new_keeps_servers props w0 r :
  is_Some (servers w0 !! r) → servers (new_FoxServer props w0).2 !! r = servers w0 !! r.
Proof.
  apply (alloc_other (Http.createServer (alloc Express.create (apps w0)).1)).
Qed.

Lemma new_levels props w0 :
  Log4js.levels (log4js (new_FoxServer props w0).2)
  = <["server"%string := "debug"%string]> (Log4js.levels (log4js w0)).
Proof. done. Qed.

Lemma new_promises props w0 : promises (new_FoxServer props w0).2 = promises w0.
Proof. done. Qed.

Lemma new_address props w0 :
  address (server (new_FoxServer props w0).1) (new_FoxServer props w0).2 = None.
Proof. unfold address. by rewrite new_server. Qed.

(** ** Start and the answer of the operating system *)

Lemma start_promise this w : (start this w).1 = fresh (dom (promises w)).
Proof.
  unfold start, new_Promise, listen. cbn.
  destruct (servers w !! getHttpServer this) as [s|]; [|done].
  destruct (Http.listen _ _ s) as [s' [e|]]; done.
Qed.

Lemma start_accepted this w s :
  servers w !! server this = Some s →
  Http.phase s = Http.Idle →
  Http.valid_port (port this) = true →
  promises (start this w).2 = <[(start this w).1 := Promise.Pending]> (promises w)
  ∧ servers (start this w).2
    = <[server this := binding_server this (start this w).1 s]> (servers w).
Proof.
  intros Hs Hidle Hport. rewrite start_promise.
  unfold start, new_Promise, listen, getHttpServer. cbn.
  rewrite Hs. unfold Http.listen, Http.has_handle. rewrite Hidle. cbn. rewrite Hport. done.
Qed.

Lemma start_bad_port this w s :
  servers w !! server this = Some s →
  Http.phase s = Http.Idle →
  Http.valid_port (port this) = false →
  promise_state (start this w).1 (start this w).2
  = Some (Promise.Rejected "ERR_SOCKET_BAD_PORT").
Proof.
  intros Hs Hidle Hport. rewrite start_promise.
  unfold promise_state, start, new_Promise, listen, getHttpServer. cbn.
  rewrite Hs. unfold Http.listen, Http.has_handle. rewrite Hidle. cbn. rewrite Hport. cbn.
  by rewrite lookup_alter_eq, lookup_insert_eq.
Qed.

Lemma start_pending this w s :
  servers w !! server this = Some s →
  Http.phase s = Http.Idle →
  Http.valid_port (port this) = true →
  promise_state (start this w).1 (start this w).2 = Some Promise.Pending.
Proof.
  intros Hs Hidle Hport. unfold promise_state.
  destruct (start_accepted this w s Hs Hidle Hport) as [Hp _].
  rewrite Hp. apply lookup_insert_eq.
Qed.

Lemma settle_bound this w s info :
  servers w !! server this = Some s →
  Http.phase s = Http.Idle →
  Http.once_listening s = [] →
  Http.valid_port (port this) = true →
  let p := (start this w).1 in
  let w' := settle (server this) (Http.Bound info) (start this w).2 in
  promise_state p w' = Some (Promise.Fulfilled this)
  ∧ address (server this) w' = Some (Http.Inet info).
Proof.
  intros Hs Hidle Hcbs Hport p w'.
  destruct (start_accepted this w s Hs Hidle Hport) as [Hp Hsrv].
  subst p w'. destruct (start this w) as [p w1]. cbn [fst snd] in *.
  unfold settle. rewrite Hsrv, lookup_insert_eq.
  cbn. rewrite Hcbs. cbn. split.
  - unfold promise_state. cbn. rewrite lookup_alter_eq, Hp, lookup_insert_eq. done.
  - unfold address. cbn. rewrite Hsrv, insert_insert_eq, lookup_insert_eq. done.
Qed.

Lemma settle_failed this w s code :
  servers w !! server this = Some s →
  Http.phase s = Http.Idle →
  Http.valid_port (port this) = true →
  let p := (start this w).1 in
  let w' := settle (server this) (Http.Failed code) (start this w).2 in
  promise_state p w' = Some Promise.Pending
  ∧ Http.error_events <$> servers w' !! server this = Some (Http.error_events s ++ [code])
  ∧ address (server this) w' = None.
Proof.
  intros Hs Hidle Hport p w'.
  destruct (start_accepted this w s Hs Hidle Hport) as [Hp Hsrv].
  subst p w'. destruct (start this w) as [p w1]. cbn [fst snd] in *.
  unfold settle. rewrite Hsrv, lookup_insert_eq.
  cbn. split; [|split].
  - unfold promise_state. cbn. rewrite Hp, lookup_insert_eq. done.
  - rewrite Hsrv, insert_insert_eq, lookup_insert_eq. done.
  - unfold address. cbn. rewrite Hsrv, insert_insert_eq, lookup_insert_eq. done.
Qed.

(** ** A configured facade *)

Lemma configured_unfold props cs w0 :
  configured props cs w0
  = chain cs (new_FoxServer props w0).1 (new_FoxServer props w0).2.
Proof. unfold configured. by destruct (new_FoxServer props w0). Qed.

Lemma configured_this props cs w0 :
  (configured props cs w0).1 = (new_FoxServer props w0).1.
Proof. rewrite configured_unfold. apply chain_returns_this. Qed.

Lemma configured_server props cs w0 :
  servers (configured props cs w0).2 !! server (configured props cs w0).1
  = Some (Http.createServer (app (configured props cs w0).1)).
Proof.
  rewrite configured_this, configured_unfold, chain_servers. apply new_server.
Qed.

Lemma configured_port props cs w0 :
  port (configured props cs w0).1 = default FOX_SERVER_DEFAULT_PORT (explicit_port props).
Proof. rewrite configured_this. apply new_port. Qed.

Lemma configured_address props cs w0 :
  address (server (configured props cs w0).1) (configured props cs w0).2 = None.
Proof. unfold address. by rewrite configured_server. Qed.

Lemma configured_pipeline props cs w0 :
  pipeline (configured props cs w0).1 (configured props cs w0).2
  = layers_of (performed cs).
Proof.
  rewrite configured_this, configured_unfold, chain_pipeline.
  - unfold pipeline, getExpressApp. by rewrite new_app.
  - rewrite new_app. by eexists.
Qed.

(** ** Concrete runs *)

Example run_json_then_cookies :
  pipeline (configured None [Use (BodyParserJSON Js.Undefined);
                             RenderEngine "pug" "/views";
                             Use (CookieParser (Js.Str "k") Js.Undefined)] empty_world).1
           (configured None [Use (BodyParserJSON Js.Undefined);
                             RenderEngine "pug" "/views";
                             Use (CookieParser (Js.Str "k") Js.Undefined)] empty_world).2
  = [{| Express.mount := None; Express.handle := Express.bodyParser_json Js.Undefined |};
     {| Express.mount := None;
        Express.handle := Express.cookieParser (Js.Str "k") Js.Undefined |}].
Proof. vm_compute. reflexivity. Qed.

Example run_listening_default :
  let '(this, p, w) := listening None [] (ipv6_any 8081) empty_world in
  promise_state p w = Some (Promise.Fulfilled this)
  ∧ getHost this w = Some "localhost"%string
  ∧ getPort this w = 8081
  ∧ last (Log4js.calls (log4js w))
    = Some {| Log4js.call_category := "server";
              Log4js.call_level := "info";
              Log4js.call_message := "Сервер запущен: http://localhost:8081" |}.
Proof. vm_compute. repeat split. Qed.

Example run_second_start :
  let '(this, _, w) := listening None [] (ipv6_any 8081) empty_world in
  promise_state (start this w).1 (start this w).2
  = Some (Promise.Rejected "ERR_SERVER_ALREADY_LISTEN").
Proof. vm_compute. reflexivity. Qed.

(** A second [start()] while the lookup of the host is still going on is
    accepted, and the bind fulfils the promises of both calls. *)
Example run_second_start_with_host :
  let this := (configured (props_host_only "127.0.0.1") [] empty_world).1 in
  let w1 := (start this (configured (props_host_only "127.0.0.1") [] empty_world).2).2 in
  let p1 := (start this (configured (props_host_only "127.0.0.1") [] empty_world).2).1 in
  let p2 := (start this w1).1 in
  let w2 := (start this w1).2 in
  promise_state p2 w2 = Some Promise.Pending
  ∧ promise_state p1 (settle (getHttpServer this) (Http.Bound (ipv4_any 8081)) w2)
    = Some (Promise.Fulfilled this)
  ∧ promise_state p2 (settle (getHttpServer this) (Http.Bound (ipv4_any 8081)) w2)
    = Some (Promise.Fulfilled this).
Proof. vm_compute. repeat split. Qed.

(** A chain ends at the call whose factory throws. *)
Example run_refused_session :
  let cs := [Use (Cors Js.Undefined);
             Use (Session (Js.Obj [("secret"%string, Js.Arr [])]));
             Use (BodyParserJSON Js.Undefined)] in
  chain_throws cs (new_FoxServer None empty_world).1 (new_FoxServer None empty_world).2
  = Some "TypeError: secret option array must contain one or more strings"%string
  ∧ pipeline (configured None cs empty_world).1 (configured None cs empty_world).2
    = [{| Express.mount := None; Express.handle := Express.cors Js.Undefined |}].
Proof. vm_compute. split; reflexivity. Qed.

(** * The claims *)

(** C1, as amended.  On its first [start()], a facade whose port is one
    [listen] accepts (0..65535) gets a promise that is pending when [start]
    returns, is fulfilled with the facade itself once the listener is bound,
    and stays pending when the bind fails: the failure shows only as an
    'error' event of the listener.  The executor is given no [reject], yet
    the promise can be rejected: when [listen] throws inside the executor
    (a port outside 0..65535), the promise is rejected with that exception. *)
Theorem start_promise_outcomes props cs w0 :
  let this := (configured props cs w0).1 in
  let w := (configured props cs w0).2 in
  let p := (start this w).1 in
  let w1 := (start this w).2 in
  (Http.valid_port (port this) = true →
     promise_state p w1 = Some Promise.Pending
     ∧ (∀ info,
          promise_state p (settle (getHttpServer this) (Http.Bound info) w1)
          = Some (Promise.Fulfilled this))
     ∧ (∀ code,
          let w2 := settle (getHttpServer this) (Http.Failed code) w1 in
          promise_state p w2 = Some Promise.Pending
          ∧ Http.error_events <$> servers w2 !! getHttpServer this = Some [code]))
  ∧ (Http.valid_port (port this) = false →
     promise_state p w1 = Some (Promise.Rejected "ERR_SOCKET_BAD_PORT")).
Proof.
  intros this w p w1.
  pose proof (configured_server props cs w0) as Hs. fold this w in Hs.
  split; intros Hport.
  - split; [|split].
    + by apply (start_pending this w _ Hs).
    + intros info. by apply (settle_bound this w _ info Hs).
    + intros code w2.
      destruct (settle_failed this w _ code Hs eq_refl Hport) as (Hp & He & _).
      split; [exact Hp | exact He].
  - by apply (start_bad_port this w _ Hs).
Qed.

Lemma start_promise_outcomes_witness :
  Http.valid_port 0 = true
  ∧ promise_state 0%nat
      (settle 0%nat (Http.Bound (ipv6_any 49731))
         (start (configured (props_port_only 0) [] empty_world).1
                (configured (props_port_only 0) [] empty_world).2).2)
    = Some (Promise.Fulfilled (configured (props_port_only 0) [] empty_world).1).
Proof.
  split; [reflexivity|].
  exact (proj1 (proj2 (proj1 (start_promise_outcomes (props_port_only 0) [] empty_world)
                         eq_refl))
               (ipv6_any 49731)).
Defined.

(** C1, as stated, fails: a facade configured with port 70000 gets from
    [start()] a promise that is rejected. *)
Lemma start_promise_rejected_counterexample :
  Http.valid_port 70000 = false
  ∧ promise_state
      (start (configured (props_port_only 70000) [] empty_world).1
             (configured (props_port_only 70000) [] empty_world).2).1
      (start (configured (props_port_only 70000) [] empty_world).1
             (configured (props_port_only 70000) [] empty_world).2).2
    = Some (Promise.Rejected "ERR_SOCKET_BAD_PORT").
Proof. split; vm_compute; reflexivity. Qed.




(** C3.  A facade constructed without an explicit port (no argument, or a
    record without [port]) reports the default port 8081 from [getPort()]
    as long as [start()] has not been called, whatever configuration calls
    were made. *)
Theorem getPort_default_before_start props cs w0 :
  explicit_port props = None →
  getPort (configured props cs w0).1 (configured props cs w0).2 = FOX_SERVER_DEFAULT_PORT
  ∧ FOX_SERVER_DEFAULT_PORT = 8081.
Proof.
  intros Hnone. split; [|reflexivity].
  unfold getPort, getHttpServer.
  by rewrite configured_address, configured_port, Hnone.
Qed.

Lemma getPort_default_before_start_witness :
  getPort (configured (props_host_only "127.0.0.1") [Use (Cors Js.Undefined)] empty_world).1
          (configured (props_host_only "127.0.0.1") [Use (Cors Js.Undefined)] empty_world).2
  = 8081.
Proof.
  exact (proj1 (getPort_default_before_start
                  (props_host_only "127.0.0.1") [Use (Cors Js.Undefined)] empty_world
                  eq_refl)).
Defined.

(** C4.  Once the listener of a facade is bound, the promise of [start()]
    is fulfilled and [getPort()] returns the port of the bound address, not
    the configured one; with port 0 configured this is the port the
    operating system picked. *)
Theorem getPort_reports_bound_port props cs w0 info :
  let this := (configured props cs w0).1 in
  let w := (configured props cs w0).2 in
  Http.valid_port (port this) = true →
  let w' := settle (getHttpServer this) (Http.Bound info) (start this w).2 in
  promise_state (start this w).1 w' = Some (Promise.Fulfilled this)
  ∧ address (getHttpServer this) w' = Some (Http.Inet info)
  ∧ getPort this w' = Http.port info.
Proof.
  intros this w Hport w'.
  pose proof (configured_server props cs w0) as Hs. fold this w in Hs.
  destruct (settle_bound this w _ info Hs eq_refl eq_refl Hport) as [Hp Ha].
  change (address (getHttpServer this) w' = Some (Http.Inet info)) in Ha.
  split; [exact Hp|]. split; [exact Ha|].
  unfold getPort. by rewrite Ha.
Qed.

Lemma getPort_reports_bound_port_witness :
  port (configured (props_port_only 0) [] empty_world).1 = 0
  ∧ getPort (configured (props_port_only 0) [] empty_world).1
      (settle (getHttpServer (configured (props_port_only 0) [] empty_world).1)
         (Http.Bound (ipv6_any 49731))
         (start (configured (props_port_only 0) [] empty_world).1
                (configured (props_port_only 0) [] empty_world).2).2)
    = 49731.
Proof.
  split; [reflexivity|].
  exact (proj2 (proj2 (getPort_reports_bound_port
                         (props_port_only 0) [] empty_world (ipv6_any 49731) eq_refl))).
Defined.

(** C5, as amended.  For a facade whose listener is bound to the IPv6
    wildcard address '::', [getHost()] returns 'localhost' instead of the
    literal. *)
Theorem getHost_ipv6_wildcard_is_localhost (this : FoxServer) (w : World)
    (info : Http.AddressInfo) :
  address (getHttpServer this) w = Some (Http.Inet info) →
  Http.address info = "::"%string →
  getHost this w = Some "localhost"%string.
Proof.
  intros Ha Hany. unfold getHost. rewrite Ha, Hany. by rewrite decide_True.
Qed.

Lemma getHost_ipv6_wildcard_is_localhost_witness :
  getHost (listening None [] (ipv6_any 8081) empty_world).1.1
          (listening None [] (ipv6_any 8081) empty_world).2
  = Some "localhost"%string.
Proof.
  apply (getHost_ipv6_wildcard_is_localhost _ _ (ipv6_any 8081)).
  - vm_compute. reflexivity.
  - reflexivity.
Defined.

(** C5, as stated, fails: a facade configured with host '0.0.0.0' and bound
    to that wildcard address returns the literal '0.0.0.0' from [getHost()]. *)
Lemma getHost_ipv4_wildcard_counterexample :
  wildcard_address "0.0.0.0" = true
  ∧ address (getHttpServer (listening (props_host_only "0.0.0.0") [] (ipv4_any 8081)
                              empty_world).1.1)
            (listening (props_host_only "0.0.0.0") [] (ipv4_any 8081) empty_world).2
    = Some (Http.Inet (ipv4_any 8081))
  ∧ getHost (listening (props_host_only "0.0.0.0") [] (ipv4_any 8081) empty_world).1.1
            (listening (props_host_only "0.0.0.0") [] (ipv4_any 8081) empty_world).2
    = Some "0.0.0.0"%string
  ∧ getHost (listening (props_host_only "0.0.0.0") [] (ipv4_any 8081) empty_world).1.1
            (listening (props_host_only "0.0.0.0") [] (ipv4_any 8081) empty_world).2
    ≠ Some "localhost"%string.
Proof.
  split; [reflexivity|]. split; [vm_compute; reflexivity|].
  assert (getHost (listening (props_host_only "0.0.0.0") [] (ipv4_any 8081)
                     empty_world).1.1
                  (listening (props_host_only "0.0.0.0") [] (ipv4_any 8081) empty_world).2
          = Some "0.0.0.0"%string) as Hh by (vm_compute; reflexivity).
  split; [exact Hh|]. rewrite Hh. discriminate.
Qed.

(** C6.  [useSession(s)] with a bare secret string [s] and
    [useSession({secret: s, resave: true, saveUninitialized: true})] return
    the same facade and leave the same world: the same session middleware
    at the same place of the pipeline, the same log line. *)
Theorem useSession_secret_is_record (s : string) (this : FoxServer) (w : World) :
  useSession (Js.Str s) this w = useSession (session_record s) this w.
Proof. reflexivity. Qed.

(** C7.  Every configuration method returns the facade it was called on,
    and every chain of them, in any order, stays on that facade.
    [useSession] and [useStatic], whose factory can throw, return the facade
    whenever they return: they either return it or throw and leave the world
    as it was. *)
Theorem configuration_methods_return_this (this : FoxServer) (w : World) :
  (∀ o, (useFilesUpload o this w).1 = this)
  ∧ (∀ o, (useCors o this w).1 = this)
  ∧ (∀ s o, (useCookieParser s o this w).1 = this)
  ∧ (∀ o, (useBodyParserURLEncode o this w).1 = this)
  ∧ (∀ o, (useBodyParserJSON o this w).1 = this)
  ∧ (∀ e p, (useRenderEngine e p this w).1 = this)
  ∧ (∀ g o, (useMethodOverride g o this w).1 = this)
  ∧ (∀ o, (useSession o this w).1 = Returns this
          ∨ ∃ e, useSession o this w = (Throws e, w))
  ∧ (∀ u p, (useStatic u p this w).1 = Returns this
            ∨ ∃ e, useStatic u p this w = (Throws e, w))
  ∧ (∀ cs, (chain cs this w).1 = this).
Proof.
  repeat split; try reflexivity.
  - intros o. unfold useSession. destruct (Express.refused _) as [e|]; [right|left]; eauto.
  - intros u p. unfold useStatic. destruct (Express.refused _) as [e|]; [right|left]; eauto.
  - intros cs. apply chain_returns_this.
Qed.



(** C9.  A sequence of "use" calls changes nothing but the stack of the
    facade's own application, and that only by appending the layers of the
    calls that were made and returned: the facade
    returned has the same fields (host, port, listener, logger,
    application), the listeners, the promises, the logger levels and the
    console are untouched, the other applications and this application's
    settings too, and [getHost()] and [getPort()] answer as before. *)
Theorem use_calls_frame (this : FoxServer) (w : World) (us : list UseCall) :
  let r := chain (Use <$> us) this w in
  (host r.1 = host this ∧ port r.1 = port this ∧ server r.1 = server this
   ∧ logger r.1 = logger this ∧ app r.1 = app this)
  ∧ (servers r.2 = servers w ∧ promises r.2 = promises w
     ∧ Log4js.levels (log4js r.2) = Log4js.levels (log4js w)
     ∧ console r.2 = console w)
  ∧ (∀ a, a ≠ app this → apps r.2 !! a = apps w !! a)
  ∧ Express.settings <$> apps r.2 !! app this = Express.settings <$> apps w !! app this
  ∧ (∀ a, apps w !! app this = Some a →
          ∃ a', apps r.2 !! app this = Some a'
                ∧ Express.stack a'
                  = Express.stack a ++ layers_of (performed (Use <$> us))
                ∧ (Forall (λ u, refusal (Use u) = None) us →
                   Express.stack a' = Express.stack a ++ (layer_of <$> us)))
  ∧ getHost this r.2 = getHost this w
  ∧ getPort this r.2 = getPort this w.
Proof.
  intros r. subst r.
  rewrite chain_returns_this, chain_servers, chain_promises, chain_levels,
    chain_console, chain_getHost, chain_getPort, chain_apps.
  repeat split.
  - intros a Ha. by apply lookup_alter_ne.
  - rewrite lookup_alter_eq. destruct (apps w !! app this) as [a|]; [|done].
    cbn. by rewrite performed_use_settings.
  - intros a Ha. exists (effects_on_app (performed (Use <$> us)) a).
    rewrite lookup_alter_eq, Ha. split; [done|].
    rewrite effects_stack, returning_performed. split; [done|].
    intros Hall. rewrite performed_all; [by rewrite layers_of_use|].
    apply Forall_fmap. exact Hall.
Qed.

Lemma use_calls_frame_witness :
  getPort (new_FoxServer (props_port_only 3000) empty_world).1
    (chain (Use <$> [Cors Js.Undefined; BodyParserJSON Js.Undefined])
       (new_FoxServer (props_port_only 3000) empty_world).1
       (new_FoxServer (props_port_only 3000) empty_world).2).2
  = getPort (new_FoxServer (props_port_only 3000) empty_world).1
            (new_FoxServer (props_port_only 3000) empty_world).2.
Proof.
  exact (proj2 (proj2 (proj2 (proj2 (proj2 (proj2
    (use_calls_frame (new_FoxServer (props_port_only 3000) empty_world).1
                     (new_FoxServer (props_port_only 3000) empty_world).2
                     [Cors Js.Undefined; BodyParserJSON Js.Undefined]))))))).
Defined.



(** * Further properties of the facade *)

(** ** What [start] and the answer of the operating system leave alone *)

Lemma run_callback_apps cb w : apps (run_callback cb w) = apps w.
Proof. by destruct cb. Qed.

Lemma run_callback_servers cb w : servers (run_callback cb w) = servers w.
Proof. by destruct cb. Qed.

Lemma run_callback_levels cb w :
  Log4js.levels (log4js (run_callback cb w)) = Log4js.levels (log4js w).
Proof. by destruct cb. Qed.

Lemma run_callback_console cb w : console (run_callback cb w) = console w.
Proof. by destruct cb. Qed.

(** A promise that is settled is not changed by a callback. *)
Lemma run_callback_settled cb w p st :
  promises w !! p = Some st → st ≠ Promise.Pending →
  promises (run_callback cb w) !! p = Some st.
Proof.
  intros Hp Hst. destruct cb as [this q]. cbn.
  rewrite lookup_alter. case_decide; [subst q|done].
  rewrite Hp. cbn. by destruct st.
Qed.

Lemma run_callbacks_keeps {A} (f : World → A) cbs :
  (∀ cb w, f (run_callback cb w) = f w) → ∀ w, f (run_callbacks cbs w) = f w.
Proof.
  intros Hone. unfold run_callbacks. induction cbs as [|cb l IH]; intros w; [done|].
  cbn. by rewrite IH, Hone.
Qed.

Lemma run_callbacks_settled cbs w p st :
  promises w !! p = Some st → st ≠ Promise.Pending →
  promises (run_callbacks cbs w) !! p = Some st.
Proof.
  intros Hp Hst. unfold run_callbacks. revert w Hp.
  induction cbs as [|cb l IH]; intros w Hp; [done|].
  cbn. apply IH. by apply run_callback_settled.
Qed.

Lemma settle_apps srv o w : apps (settle srv o w) = apps w.
Proof.
  unfold settle. destruct (servers w !! srv) as [s|]; [|done].
  destruct (Http.phase s), o; try done.
  by etrans; [apply (run_callbacks_keeps apps _ run_callback_apps)|].
Qed.

Lemma settle_levels srv o w :
  Log4js.levels (log4js (settle srv o w)) = Log4js.levels (log4js w).
Proof.
  unfold settle. destruct (servers w !! srv) as [s|]; [|done].
  destruct (Http.phase s), o; try done.
  by etrans; [apply (run_callbacks_keeps (λ w, Log4js.levels (log4js w)) _ run_callback_levels)|].
Qed.

Lemma settle_console srv o w : console (settle srv o w) = console w.
Proof.
  unfold settle. destruct (servers w !! srv) as [s|]; [|done].
  destruct (Http.phase s), o; try done.
  by etrans; [apply (run_callbacks_keeps console _ run_callback_console)|].
Qed.

Lemma settle_servers srv o w :
  servers (settle srv o w) = alter (answered o) srv (servers w).
Proof.
  unfold settle. destruct (servers w !! srv) as [s|] eqn:Hs.
  - assert (alter (answered o) srv (servers w) = <[srv := answered o s]> (servers w)) as ->.
    { apply map_eq. intros i. rewrite lookup_alter, lookup_insert.
      case_decide; subst; by rewrite ?Hs. }
    unfold answered. destruct (Http.phase s) eqn:Hph, o; cbn.
    1,2,5,6: symmetry; apply insert_id; rewrite Hs; f_equal; destruct s; cbn in *; by subst.
    + by etrans; [apply (run_callbacks_keeps servers _ run_callback_servers)|].
    + done.
  - symmetry. by apply alter_id'.
Qed.

Lemma settle_promise_settled srv o w p st :
  promises w !! p = Some st → st ≠ Promise.Pending →
  promises (settle srv o w) !! p = Some st.
Proof.
  intros Hp Hst. unfold settle. destruct (servers w !! srv) as [s|]; [|done].
  destruct (Http.phase s), o; try done.
  by apply run_callbacks_settled.
Qed.

Lemma start_apps this w : apps (start this w).2 = apps w.
Proof.
  unfold start, new_Promise, listen. cbn.
  destruct (servers w !! getHttpServer this) as [s|]; [|done].
  by destruct (Http.listen _ _ s) as [s' [e|]].
Qed.

Lemma start_levels this w :
  Log4js.levels (log4js (start this w).2) = Log4js.levels (log4js w).
Proof.
  unfold start, new_Promise, listen. cbn.
  destruct (servers w !! getHttpServer this) as [s|]; [|done].
  by destruct (Http.listen _ _ s) as [s' [e|]].
Qed.

Lemma start_console this w : console (start this w).2 = console w ++ [banner].
Proof.
  unfold start, new_Promise, listen. cbn.
  destruct (servers w !! getHttpServer this) as [s|]; [|done].
  by destruct (Http.listen _ _ s) as [s' [e|]].
Qed.

Lemma start_calls this w :
  Log4js.calls (log4js (start this w).2)
  = Log4js.calls (log4js w)
    ++ [{| Log4js.call_category := Log4js.category (getLogger this);
           Log4js.call_level := "info";
           Log4js.call_message := "Запуск сервера..." |}].
Proof.
  unfold start, new_Promise, listen. cbn.
  destruct (servers w !! getHttpServer this) as [s|]; [|done].
  by destruct (Http.listen _ _ s) as [s' [e|]].
Qed.

Lemma start_servers this w :
  servers (start this w).2
  = alter (listened this (start this w).1) (server this) (servers w).
Proof.
  rewrite start_promise. unfold start, new_Promise, listen, listened, getHttpServer. cbn.
  destruct (servers w !! server this) as [s|] eqn:Hs.
  - destruct (Http.listen _ _ s) as [s' [e|]] eqn:Hl; cbn;
      apply map_eq; intros i; rewrite lookup_alter, lookup_insert;
      case_decide; subst; rewrite ?Hs; cbn; by rewrite ?Hl.
  - cbn. symmetry. by apply alter_id'.
Qed.

Lemma start_promise_settled this w p st :
  promises w !! p = Some st →
  promises (start this w).2 !! p = Some st.
Proof.
  intros Hp.
  assert (p ≠ fresh (dom (promises w))) as Hne.
  { intros ->. pose proof (is_fresh (dom (promises w))) as Hf.
    apply not_elem_of_dom in Hf. by rewrite Hf in Hp. }
  unfold start, new_Promise, listen. cbn.
  destruct (servers w !! getHttpServer this) as [s|].
  - destruct (Http.listen _ _ s) as [s' [e|]]; cbn;
      rewrite ?lookup_alter_ne by done; by rewrite lookup_insert_ne.
  - cbn. by rewrite lookup_insert_ne.
Qed.

(** ** One action, and a life of actions *)

Lemma listened_requestListener this p s :
  Http.requestListener (listened this p s) = Http.requestListener s.
Proof.
  unfold listened, Http.listen. destruct (Http.has_handle s); [done|].
  by destruct (Http.valid_port _).
Qed.

Lemma answered_requestListener o s :
  Http.requestListener (answered o s) = Http.requestListener s.
Proof. unfold answered. by destruct (Http.phase s), o. Qed.

Lemma listened_listening this p s a :
  Http.phase s = Http.Listening a → listened this p s = s.
Proof. intros Hph. unfold listened, Http.listen, Http.has_handle. by rewrite Hph. Qed.

Lemma answered_listening o s a :
  Http.phase s = Http.Listening a → answered o s = s.
Proof. intros Hph. unfold answered. by rewrite Hph. Qed.

Lemma life_cons this a acts w : life this (a :: acts) w = life this acts (act this w a).
Proof. done. Qed.

Lemma act_apps this w a :
  apps (act this w a)
  = match a with
    | Configure c => alter (effect_on_app c) (app this) (apps w)
    | _ => apps w
    end.
Proof.
  destruct a as [c| |o]; cbn [act].
  - apply call_apps.
  - apply start_apps.
  - apply settle_apps.
Qed.

Lemma life_apps this acts w :
  apps (life this acts w)
  = alter (effects_on_app (configurations acts)) (app this) (apps w).
Proof.
  revert w. induction acts as [|a acts IH]; intros w.
  - cbn. symmetry. by apply alter_id.
  - rewrite life_cons, IH, act_apps. destruct a as [c| |o]; [|done..].
    apply (alter_alter_eq (effects_on_app (configurations acts)) (effect_on_app c)).
Qed.

Lemma act_levels this w a :
  Log4js.levels (log4js (act this w a)) = Log4js.levels (log4js w).
Proof.
  destruct a as [c| |o]; cbn [act].
  - apply call_levels.
  - apply start_levels.
  - apply settle_levels.
Qed.

Lemma life_levels this acts w :
  Log4js.levels (log4js (life this acts w)) = Log4js.levels (log4js w).
Proof.
  revert w. induction acts as [|a acts IH]; intros w; [done|].
  by rewrite life_cons, IH, act_levels.
Qed.

(** Every action changes the listeners at most at the facade's own, and
    never its request listener. *)
Lemma act_servers this w a :
  ∃ f, servers (act this w a) = alter f (server this) (servers w)
       ∧ (∀ s, Http.requestListener (f s) = Http.requestListener s)
       ∧ (∀ s b, Http.phase s = Http.Listening b → f s = s).
Proof.
  destruct a as [c| |o]; cbn [act].
  - exists id. rewrite call_servers. split; [|done].
    symmetry. by apply alter_id.
  - exists (listened this (start this w).1). split; [apply start_servers|].
    split; [apply listened_requestListener | apply listened_listening].
  - exists (answered o). split; [apply settle_servers|].
    split; [apply answered_requestListener | apply answered_listening].
Qed.

Lemma life_servers this acts w :
  ∃ f, servers (life this acts w) = alter f (server this) (servers w)
       ∧ (∀ s, Http.requestListener (f s) = Http.requestListener s)
       ∧ (∀ s b, Http.phase s = Http.Listening b → f s = s).
Proof.
  revert w. induction acts as [|a acts IH]; intros w.
  - exists id. split; [|done]. symmetry. by apply alter_id.
  - rewrite life_cons. destruct (IH (act this w a)) as (g & Hg & Hgr & Hgl).
    destruct (act_servers this w a) as (f & Hf & Hfr & Hfl).
    exists (g ∘ f). split; [|split].
    + by rewrite Hg, Hf, alter_alter_eq.
    + intros s. cbn. by rewrite Hgr, Hfr.
    + intros s b Hph. cbn. rewrite (Hfl s b Hph). by apply (Hgl s b).
Qed.

Lemma act_promise_settled this w a p st :
  promises w !! p = Some st → st ≠ Promise.Pending →
  promises (act this w a) !! p = Some st.
Proof.
  intros Hp Hst. destruct a as [c| |o]; cbn [act].
  - by rewrite call_promises.
  - by apply start_promise_settled.
  - by apply settle_promise_settled.
Qed.

Lemma act_console this w a :
  console (act this w a) = console w ++ banners [a].
Proof.
  destruct a as [c| |o]; cbn [act banners omap].
  - rewrite call_console. by rewrite app_nil_r.
  - apply start_console.
  - rewrite settle_console. by rewrite app_nil_r.
Qed.

Lemma banners_cons a acts : banners (a :: acts) = banners [a] ++ banners acts.
Proof. by destruct a. Qed.

Lemma chain_calls cs this w :
  Log4js.calls (log4js (chain cs this w).2)
  = Log4js.calls (log4js w) ++ (debug_line this <$> performed cs).
Proof.
  revert w. induction cs as [|c cs IH]; intros w.
  - cbn. by rewrite app_nil_r.
  - rewrite chain_cons, performed_cons. pose proof (call_calls c this w) as Hc.
    destruct (refusal c) as [e|]; [by rewrite app_nil_r|].
    rewrite IH, Hc, fmap_cons. by rewrite <- app_assoc.
Qed.

(** * Further properties, one by one *)

(** X1.  Before [start()], [getPort()] returns the port given to the
    constructor whatever it is: port 0 is kept, it is not replaced by the
    default.  [getHost()] returns the host given to the constructor, and
    [undefined] when none was given. *)
Theorem configured_values_before_start (h : option string) (p : Z) cs w0 :
  let props := Some {| props_host := h; props_port := Some p |} in
  getPort (configured props cs w0).1 (configured props cs w0).2 = p
  ∧ getHost (configured props cs w0).1 (configured props cs w0).2 = h
  ∧ getHost (configured None cs w0).1 (configured None cs w0).2 = None.
Proof.
  intros props. unfold getPort, getHost, getHttpServer.
  rewrite !configured_address, configured_port, !configured_this, !new_host.
  done.
Qed.



(** X3.  When [address()] of the listener is a string (the listener was
    bound to a pipe), [getPort()] and [getHost()] fall back to the
    configured port and host. *)
Theorem pipe_address_falls_back (this : FoxServer) (w : World) (path : string) :
  address (getHttpServer this) w = Some (Http.Pipe path) →
  getPort this w = port this ∧ getHost this w = host this.
Proof. intros Ha. unfold getPort, getHost. by rewrite Ha. Qed.

Lemma pipe_address_falls_back_witness :
  getPort (new_FoxServer (props_port_only 3000) empty_world).1
          (bound_to_pipe "/tmp/fox.sock"
             (new_FoxServer (props_port_only 3000) empty_world).1
             (new_FoxServer (props_port_only 3000) empty_world).2)
  = 3000.
Proof.
  refine (proj1 (pipe_address_falls_back
                   (new_FoxServer (props_port_only 3000) empty_world).1
                   (bound_to_pipe "/tmp/fox.sock"
                      (new_FoxServer (props_port_only 3000) empty_world).1
                      (new_FoxServer (props_port_only 3000) empty_world).2)
                   "/tmp/fox.sock" _)).
  vm_compute. reflexivity.
Defined.

(** X4.  For a listener bound to an address other than '::', [getHost()]
    returns the bound address as it is, not the configured host. *)
Theorem getHost_returns_bound_address (this : FoxServer) (w : World)
    (info : Http.AddressInfo) :
  address (getHttpServer this) w = Some (Http.Inet info) →
  Http.address info ≠ "::"%string →
  getHost this w = Some (Http.address info).
Proof.
  intros Ha Hne. unfold getHost. rewrite Ha. by rewrite decide_False.
Qed.

Lemma getHost_returns_bound_address_witness :
  getHost (listening (props_host_only "localhost") []
             {| Http.address := "127.0.0.1"; Http.family := "IPv4"; Http.port := 8081 |}
             empty_world).1.1
          (listening (props_host_only "localhost") []
             {| Http.address := "127.0.0.1"; Http.family := "IPv4"; Http.port := 8081 |}
             empty_world).2
  = Some "127.0.0.1"%string.
Proof.
  apply (getHost_returns_bound_address _ _
           {| Http.address := "127.0.0.1"; Http.family := "IPv4"; Http.port := 8081 |}).
  - vm_compute. reflexivity.
  - discriminate.
Defined.

(** X5.  [createFoxServer(options)] is [new FoxServer(options)], and the
    construction makes new objects only: the application and the listener of
    the new facade did not exist before, the pipeline is empty, the listener
    is not bound and hands its requests to the facade's application.  What
    existed is left as it was: applications, listeners, promises, the
    console, the logged lines and the level of every category but 'server'. *)
Theorem createFoxServer_builds_fresh_facade props w0 :
  let this := (createFoxServer props w0).1 in
  let w := (createFoxServer props w0).2 in
  createFoxServer props w0 = new_FoxServer props w0
  ∧ (apps w0 !! getExpressApp this = None ∧ servers w0 !! getHttpServer this = None)
  ∧ (pipeline this w = [] ∧ address (getHttpServer this) w = None
     ∧ Http.requestListener <$> servers w !! getHttpServer this = Some (getExpressApp this))
  ∧ (∀ r, is_Some (apps w0 !! r) → apps w !! r = apps w0 !! r)
  ∧ (∀ r, is_Some (servers w0 !! r) → servers w !! r = servers w0 !! r)
  ∧ (promises w = promises w0 ∧ console w = console w0
     ∧ Log4js.calls (log4js w) = Log4js.calls (log4js w0))
  ∧ (∀ c, c ≠ "server"%string →
          Log4js.levels (log4js w) !! c = Log4js.levels (log4js w0) !! c).
Proof.
  intros this w. unfold this, w, createFoxServer, getExpressApp, getHttpServer.
  split; [done|]. split; [split; [apply new_app_fresh | apply new_server_fresh]|].
  split.
  { split; [|split].
    - unfold pipeline, getExpressApp. by rewrite new_app.
    - apply new_address.
    - by rewrite new_server. }
  split; [apply new_keeps_apps|]. split; [apply new_keeps_servers|].
  split; [done|].
  intros c Hc. rewrite new_levels. by apply lookup_insert_ne.
Qed.

Lemma createFoxServer_builds_fresh_facade_witness :
  getExpressApp (createFoxServer None (new_FoxServer None empty_world).2).1 = 1%nat
  ∧ apps (createFoxServer None (new_FoxServer None empty_world).2).2 !! 0%nat
    = apps (new_FoxServer None empty_world).2 !! 0%nat.
Proof.
  split; [reflexivity|].
  refine (proj1 (proj2 (proj2 (proj2
            (createFoxServer_builds_fresh_facade None (new_FoxServer None empty_world).2))))
            0%nat _).
  vm_compute. by eexists.
Defined.

(** X6.  Two facades do not interfere.  Whatever is done to a facade built
    after another one (configuration calls, [start()], answers of the
    operating system to its binds), the two have different applications and
    listeners, and the pipeline, the port and the host of the first facade
    stay as they were (the pipeline holding the layers of the calls made on
    the first facade). *)
Theorem facades_do_not_interfere props1 cs props2 acts w0 :
  let first := (configured props1 cs w0).1 in
  let w1 := (configured props1 cs w0).2 in
  let second := (new_FoxServer props2 w1).1 in
  let w2 := life second acts (new_FoxServer props2 w1).2 in
  (getExpressApp first ≠ getExpressApp second
   ∧ getHttpServer first ≠ getHttpServer second)
  ∧ (pipeline first w2 = pipeline first w1
     ∧ pipeline first w1 = layers_of (performed cs))
  ∧ getPort first w2 = getPort first w1
  ∧ getHost first w2 = getHost first w1.
Proof.
  intros first w1 second w2.
  assert (is_Some (apps w1 !! app first)) as Happ.
  { unfold first, w1. rewrite configured_this, configured_unfold, chain_apps.
    rewrite lookup_alter_eq, new_app. by eexists. }
  assert (is_Some (servers w1 !! server first)) as Hsrv.
  { unfold first, w1. rewrite configured_server. by eexists. }
  assert (app first ≠ app second) as Hna.
  { intros Heq. rewrite Heq in Happ. unfold second in Happ.
    rewrite new_app_fresh in Happ. by destruct Happ. }
  assert (server first ≠ server second) as Hns.
  { intros Heq. rewrite Heq in Hsrv. unfold second in Hsrv.
    rewrite new_server_fresh in Hsrv. by destruct Hsrv. }
  assert (apps w2 !! app first = apps w1 !! app first) as Ha2.
  { unfold w2. rewrite life_apps, lookup_alter_ne by done. by apply new_keeps_apps. }
  assert (address (server first) w2 = address (server first) w1) as Hs2.
  { unfold address, w2. destruct (life_servers second acts (new_FoxServer props2 w1).2)
      as (f & -> & _). rewrite lookup_alter_ne by done.
    by rewrite new_keeps_servers. }
  split; [done|]. split; [|split].
  - split; [unfold pipeline, getExpressApp; by rewrite Ha2|].
    apply configured_pipeline.
  - unfold getPort, getHttpServer. by rewrite Hs2.
  - unfold getHost, getHttpServer. by rewrite Hs2.
Qed.

(** X7.  [useRenderEngine(engine, path)] writes the two settings 'views'
    (the path) and 'view engine' (the engine) of the application, replacing
    what an earlier call wrote; every other setting and the pipeline stay as
    they were. *)
Theorem useRenderEngine_sets_views (engine path : string) (this : FoxServer) (w : World)
    (a : Express.App) :
  apps w !! getExpressApp this = Some a →
  ∃ a', apps (useRenderEngine engine path this w).2 !! getExpressApp this = Some a'
        ∧ Express.settings a' !! "views"%string = Some path
        ∧ Express.settings a' !! "view engine"%string = Some engine
        ∧ (∀ k, k ≠ "views"%string → k ≠ "view engine"%string →
                Express.settings a' !! k = Express.settings a !! k)
        ∧ Express.stack a' = Express.stack a.
Proof.
  intros Ha. unfold getExpressApp in *.
  exists (Express.set "view engine" engine (Express.set "views" path a)).
  split.
  - change (useRenderEngine engine path this w).2
      with (call (RenderEngine engine path) this w).2.
    rewrite call_apps, lookup_alter_eq, Ha. reflexivity.
  - cbn. split; [|split; [|split; [|done]]].
    + rewrite lookup_insert_ne by done. apply lookup_insert_eq.
    + apply lookup_insert_eq.
    + intros k H1 H2. by rewrite !lookup_insert_ne.
Qed.

Lemma useRenderEngine_sets_views_witness :
  ∃ a', apps (useRenderEngine "ejs" "/srv/views"
                (new_FoxServer None empty_world).1
                (useRenderEngine "pug" "/views"
                   (new_FoxServer None empty_world).1
                   (new_FoxServer None empty_world).2).2).2
          !! getExpressApp (new_FoxServer None empty_world).1 = Some a'
        ∧ Express.settings a' !! "views"%string = Some "/srv/views"%string
        ∧ Express.settings a' !! "view engine"%string = Some "ejs"%string.
Proof.
  destruct (useRenderEngine_sets_views "ejs" "/srv/views"
              (new_FoxServer None empty_world).1
              (useRenderEngine "pug" "/views"
                 (new_FoxServer None empty_world).1
                 (new_FoxServer None empty_world).2).2
              (Express.set "view engine" "pug" (Express.set "views" "/views" Express.create))
              eq_refl)
    as (a' & H1 & H2 & H3 & _).
  exists a'. split; [exact H1|]. split; [exact H2 | exact H3].
Defined.




(** The line of the callback, for a listener that is bound. *)
Lemma run_callback_calls this p w info :
  address (getHttpServer this) w = Some (Http.Inet info) →
  Log4js.calls (log4js (run_callback (OnListening this p) w))
  = Log4js.calls (log4js w) ++ [serving_line this info].
Proof.
  intros Ha. unfold run_callback, getHost, getPort. rewrite Ha. cbn.
  unfold serving_line, host_of_bound. by destruct (decide _).
Qed.

(** X10.  When the bind of a started facade succeeds, one line is logged at
    level 'info': "Сервер запущен: http://HOST:PORT", where HOST and PORT
    are those of the bound address (the port the operating system picked,
    'localhost' for '::'), not the configured ones. *)
Theorem bound_listener_is_logged props cs w0 info :
  let this := (configured props cs w0).1 in
  let w1 := (start this (configured props cs w0).2).2 in
  Http.valid_port (port this) = true →
  Log4js.calls (log4js (settle (getHttpServer this) (Http.Bound info) w1))
  = Log4js.calls (log4js w1) ++ [serving_line this info].
Proof.
  intros this w1 Hport.
  pose proof (configured_server props cs w0) as Hs. fold this in Hs.
  destruct (start_accepted this _ _ Hs eq_refl Hport) as [_ Hsrv].
  unfold w1, settle, getHttpServer. rewrite Hsrv, lookup_insert_eq.
  cbn [Http.phase binding_server Http.once_listening Http.createServer].
  rewrite app_nil_l. cbn [foldl].
  rewrite run_callback_calls with (info := info); [done|].
  unfold address, getHttpServer. cbn. by rewrite lookup_insert_eq.
Qed.

Lemma bound_listener_is_logged_witness :
  last (Log4js.calls (log4js (listening (props_port_only 0) [] (ipv6_any 49731)
                                empty_world).2))
  = Some {| Log4js.call_category := "server";
            Log4js.call_level := "info";
            Log4js.call_message := "Сервер запущен: http://localhost:49731" |}.
Proof.
  pose proof (bound_listener_is_logged (props_port_only 0) [] empty_world
                (ipv6_any 49731) eq_refl) as H.
  change (last (Log4js.calls
                  (log4js (settle (getHttpServer (configured (props_port_only 0) []
                                                    empty_world).1)
                             (Http.Bound (ipv6_any 49731))
                             (start (configured (props_port_only 0) [] empty_world).1
                                    (configured (props_port_only 0) [] empty_world).2).2)))
          = Some {| Log4js.call_category := "server";
                    Log4js.call_level := "info";
                    Log4js.call_message := "Сервер запущен: http://localhost:49731" |}).
  rewrite H. rewrite last_snoc. vm_compute. reflexivity.
Defined.

(** X11.  [start()] on a facade whose listener is already bound does not
    bind again: [listen] throws inside the executor, the promise returned is
    rejected with ERR_SERVER_ALREADY_LISTEN, the bound address stays, and
    every promise of an earlier [start()] keeps its state. *)
Theorem start_on_bound_listener_rejects (this : FoxServer) (w : World) (a : Http.Address) :
  address (getHttpServer this) w = Some a →
  promise_state (start this w).1 (start this w).2
  = Some (Promise.Rejected "ERR_SERVER_ALREADY_LISTEN")
  ∧ address (getHttpServer this) (start this w).2 = Some a
  ∧ ∀ p st, promise_state p w = Some st → promise_state p (start this w).2 = Some st.
Proof.
  intros Ha. unfold address, getHttpServer in Ha.
  destruct (servers w !! server this) as [s|] eqn:Hs; [|done].
  cbn in Ha. unfold Http.address_of in Ha.
  destruct (Http.phase s) as [| |b] eqn:Hph; try done. injection Ha as ->.
  split; [|split].
  - rewrite start_promise.
    unfold promise_state, start, new_Promise, listen, getHttpServer. cbn.
    rewrite Hs. unfold Http.listen, Http.has_handle. rewrite Hph. cbn.
    by rewrite lookup_alter_eq, lookup_insert_eq.
  - unfold address, getHttpServer.
    rewrite start_servers, lookup_alter_eq, Hs. cbn.
    rewrite (listened_listening _ _ _ _ Hph). unfold Http.address_of. by rewrite Hph.
  - intros p st Hp. by apply start_promise_settled.
Qed.

Lemma start_on_bound_listener_rejects_witness :
  promise_state
    (start (listening None [] (ipv6_any 8081) empty_world).1.1
           (listening None [] (ipv6_any 8081) empty_world).2).1
    (start (listening None [] (ipv6_any 8081) empty_world).1.1
           (listening None [] (ipv6_any 8081) empty_world).2).2
  = Some (Promise.Rejected "ERR_SERVER_ALREADY_LISTEN").
Proof.
  refine (proj1 (start_on_bound_listener_rejects
                   (listening None [] (ipv6_any 8081) empty_world).1.1
                   (listening None [] (ipv6_any 8081) empty_world).2
                   (Http.Inet (ipv6_any 8081)) _)).
  vm_compute. reflexivity.
Defined.

(** X12.  The listener is bound at most once: when [address()] is not
    [null], nothing that happens to the facade (configuration calls, more
    [start()] calls, late answers of the operating system) changes it, and
    [getPort()] and [getHost()] keep their values. *)
Theorem bound_address_is_stable (this : FoxServer) (w : World) (a : Http.Address)
    (acts : list Action) :
  address (getHttpServer this) w = Some a →
  address (getHttpServer this) (life this acts w) = Some a
  ∧ getPort this (life this acts w) = getPort this w
  ∧ getHost this (life this acts w) = getHost this w.
Proof.
  intros Ha.
  assert (address (getHttpServer this) (life this acts w) = Some a) as Hl.
  { unfold address, getHttpServer in *.
    destruct (servers w !! server this) as [s|] eqn:Hs; [|done].
    cbn in Ha. unfold Http.address_of in Ha.
    destruct (Http.phase s) as [| |b] eqn:Hph; try done.
    destruct (life_servers this acts w) as (f & -> & _ & Hfl).
    rewrite lookup_alter_eq, Hs. cbn. rewrite (Hfl s b Hph).
    unfold Http.address_of. by rewrite Hph. }
  split; [exact Hl|]. unfold getPort, getHost. by rewrite Hl, Ha.
Qed.

Lemma bound_address_is_stable_witness :
  getPort (listening (props_port_only 0) [] (ipv6_any 49731) empty_world).1.1
    (life (listening (props_port_only 0) [] (ipv6_any 49731) empty_world).1.1
          [Start; Answer (Http.Bound (ipv4_any 80)); Configure (Use (Cors Js.Undefined))]
          (listening (props_port_only 0) [] (ipv6_any 49731) empty_world).2)
  = getPort (listening (props_port_only 0) [] (ipv6_any 49731) empty_world).1.1
            (listening (props_port_only 0) [] (ipv6_any 49731) empty_world).2.
Proof.
  refine (proj1 (proj2 (bound_address_is_stable
                          (listening (props_port_only 0) [] (ipv6_any 49731)
                             empty_world).1.1
                          (listening (props_port_only 0) [] (ipv6_any 49731) empty_world).2
                          (Http.Inet (ipv6_any 49731))
                          [Start; Answer (Http.Bound (ipv4_any 80));
                           Configure (Use (Cors Js.Undefined))] _))).
  vm_compute. reflexivity.
Defined.



(** X14.  The listener of a facade hands its requests to the facade's own
    application, from the construction on and whatever happens to the
    facade: [getHttpServer()] is always the server created for
    [getExpressApp()]. *)
Theorem listener_serves_own_application props w0 (acts : list Action) :
  let this := (new_FoxServer props w0).1 in
  let w := life this acts (new_FoxServer props w0).2 in
  Http.requestListener <$> servers w !! getHttpServer this = Some (getExpressApp this).
Proof.
  intros this w. unfold w, getHttpServer, getExpressApp.
  destruct (life_servers this acts (new_FoxServer props w0).2) as (f & -> & Hfr & _).
  rewrite lookup_alter_eq. unfold this. rewrite new_server. cbn.
  by rewrite Hfr.
Qed.

(** X15.  No method of the facade changes a logger level: the level 'debug'
    that the constructor sets on the category 'server' is still there after
    any configuration calls, [start()] calls and answers, and the levels of
    the other categories are those from before the construction. *)
Theorem logger_level_stays_debug props w0 (acts : list Action) :
  let this := (new_FoxServer props w0).1 in
  let w := life this acts (new_FoxServer props w0).2 in
  Log4js.level (getLogger this) (log4js w) = Some "debug"%string
  ∧ ∀ c, c ≠ "server"%string →
         Log4js.levels (log4js w) !! c = Log4js.levels (log4js w0) !! c.
Proof.
  intros this w. unfold w, Log4js.level. rewrite life_levels, new_levels. split.
  - apply lookup_insert_eq.
  - intros c Hc. by apply lookup_insert_ne.
Qed.

(** X16.  [useFilesUpload()] without options ([undefined] or [null])
    registers the upload middleware built from [{limits: {fileSize:
    52428800}}], a cap of 50 MiB; any other argument is handed to the
    factory as it is. *)
Theorem useFilesUpload_default_cap (this : FoxServer) (w : World) (o : Js.Val) :
  is_Some (apps w !! getExpressApp this) →
  pipeline this (useFilesUpload o this w).2
  = pipeline this w
    ++ [{| Express.mount := None;
           Express.handle :=
             Express.fileUpload
               (if Js.nullish o
                then Js.Obj [("limits"%string,
                              Js.Obj [("fileSize"%string, Js.Num 52428800)])]
                else o) |}].
Proof.
  intros Happ.
  change (useFilesUpload o this w) with (chain [Use (FilesUpload o)] this w).
  by rewrite (chain_pipeline [Use (FilesUpload o)] this w Happ).
Qed.

Lemma useFilesUpload_default_cap_witness :
  pipeline (new_FoxServer None empty_world).1
    (useFilesUpload Js.Undefined
       (new_FoxServer None empty_world).1 (new_FoxServer None empty_world).2).2
  = pipeline (new_FoxServer None empty_world).1 (new_FoxServer None empty_world).2
    ++ [{| Express.mount := None;
           Express.handle :=
             Express.fileUpload
               (Js.Obj [("limits"%string,
                         Js.Obj [("fileSize"%string, Js.Num 52428800)])]) |}].
Proof.
  refine (useFilesUpload_default_cap
            (new_FoxServer None empty_world).1 (new_FoxServer None empty_world).2
            Js.Undefined _).
  vm_compute. by eexists.
Defined.



(** X18.  A promise of [start()] settles once: when it is fulfilled or
    rejected, nothing that happens to the facade afterwards changes its
    state, not another [start()], not a later answer of the operating
    system. *)
Theorem settled_promise_is_final (this : FoxServer) (acts : list Action) (w : World)
    (p : nat) (st : Promise.State) :
  promise_state p w = Some st →
  st ≠ Promise.Pending →
  promise_state p (life this acts w) = Some st.
Proof.
  unfold promise_state. revert w. induction acts as [|a acts IH]; intros w Hp Hst; [done|].
  rewrite life_cons. apply IH; [|done]. by apply act_promise_settled.
Qed.

Lemma settled_promise_is_final_witness :
  promise_state (listening None [] (ipv6_any 8081) empty_world).1.2
    (life (listening None [] (ipv6_any 8081) empty_world).1.1
          [Start; Answer (Http.Failed "EADDRINUSE")]
          (listening None [] (ipv6_any 8081) empty_world).2)
  = Some (Promise.Fulfilled (listening None [] (ipv6_any 8081) empty_world).1.1).
Proof.
  apply (settled_promise_is_final
           (listening None [] (ipv6_any 8081) empty_world).1.1
           [Start; Answer (Http.Failed "EADDRINUSE")]
           (listening None [] (ipv6_any 8081) empty_world).2).
  - vm_compute. reflexivity.
  - discriminate.
Defined.


